(** * BattINFO example notebooks: the display steps, verified

    The repository holds two Jupyter notebooks.  Each one loads the battery
    ontology with [ontopy], parses a JSON-LD document into an [rdflib] graph,
    runs one SPARQL [SELECT] and prints the rows:

    - the time-series schema notebook (cell "Step 6: Display Results") resolves
      the property class and the unit of every column through
      [battinfo.search_one(iri=...).prefLabel[0]];
    - the electrolyte notebook prints the labels bound by the query itself and
      falls back to the raw identifier when a label is falsy.

    The development embeds the Python of both display cells, the values they
    receive from [rdflib] and [ontopy], and the cells of a notebook as
    transformers of the kernel's namespace. *)

From Stdlib Require Import String Ascii List Bool NArith.
From stdpp Require Import base option strings gmap.

Local Open Scope string_scope.
Local Open Scope list_scope.

(** ** Python: exceptions and the values a cell handles *)

Module Py.

(** The uncaught exceptions the display cells can end in. *)
Inductive exn : Type :=
| NameError       (* a name read before any assignment *)
| AttributeError  (* [None.prefLabel], or an ontology without the name *)
| IndexError      (* [[][0]] *)
| ExternalError.  (* raised inside a collaborator: network, file, parser *)

Inductive result (A : Type) : Type :=
| Ok (a : A)
| Raise (e : exn).
Arguments Ok {A} a.
Arguments Raise {A} e.

Definition bind {A B} (m : result A) (f : A -> result B) : result B :=
  match m with
  | Ok a => f a
  | Raise e => Raise e
  end.

Definition raises {A} (m : result A) : Prop := exists e, m = Raise e.

(** Reading a global name of the kernel. *)
Definition name {A} (v : option A) : result A :=
  match v with
  | Some a => Ok a
  | None => Raise NameError
  end.

(** [str.lower] on the ASCII range.  Of all code points only [T], [R], [U]
    and [E] lower-case to the letters of ["true"], so the comparison
    [x.lower() == "true"] is decided by the ASCII letters alone. *)
Definition lower_ascii (c : ascii) : ascii :=
  let n := N_of_ascii c in
  if ((65 <=? n) && (n <=? 90))%N then ascii_of_N (n + 32) else c.

Fixpoint lower (s : string) : string :=
  match s with
  | EmptyString => EmptyString
  | String c s' => String (lower_ascii c) (lower s')
  end.

(** [bool(s)] for a [str]. *)
Definition str_bool (s : string) : bool :=
  match s with
  | EmptyString => false
  | String _ _ => true
  end.

(** [xs[0]] for a list. *)
Definition index0 {A} (xs : list A) : result A :=
  match xs with
  | x :: _ => Ok x
  | [] => Raise IndexError
  end.

End Py.

Import Py.

#[export] Instance result_ret : MRet result := @Ok.
#[export] Instance result_bind : MBind result := fun _ _ f m => Py.bind m f.

(** ** rdflib: the terms bound in a result row *)

Module Rdflib.

(** The datatype of a literal, by what [rdflib] does to turn the lexical
    form into a Python value ([_castLexicalToPython]): no datatype and
    [xsd:string] keep the text, [xsd:boolean] goes through [_parseBoolean],
    and a datatype without a converter for the text (unknown, or one whose
    converter rejects the text) leaves the value [None].  Literals that
    convert to other Python objects (numbers, dates, XML documents) are not
    represented. *)
Inductive datatype : Type :=
| Plain
| XSD_string
| XSD_boolean
| Unconverted (iri : string).

(** [URIRef], [BNode] and [Literal] are all subclasses of [str]: the string
    is the IRI, the blank node id or the lexical form. *)
Inductive term : Type :=
| URIRef (iri : string)
| BNode (id : string)
| Literal (lexical : string) (dt : datatype).

Definition text (t : term) : string :=
  match t with
  | URIRef s => s
  | BNode s => s
  | Literal s _ => s
  end.

Inductive pyvalue : Type :=
| PyStr (s : string)
| PyBool (b : bool).

(** [_parseBoolean]: ["1"] and ["true"] (any case) are true. *)
Definition parseBoolean (s : string) : bool :=
  let v := lower s in
  String.eqb v "1" || String.eqb v "true".

(** [Literal.value]. *)
Definition value (lexical : string) (dt : datatype) : option pyvalue :=
  match dt with
  | Plain | XSD_string => Some (PyStr lexical)
  | XSD_boolean => Some (PyBool (parseBoolean lexical))
  | Unconverted _ => None
  end.

(** [bool(t)].  [Literal.__bool__] answers with the truth of the value when
    there is one and with [len(self) != 0] otherwise; [URIRef] and [BNode]
    inherit the test of [str]. *)
Definition truthy (t : term) : bool :=
  match t with
  | URIRef s | BNode s => str_bool s
  | Literal s dt =>
      match value s dt with
      | Some (PyStr v) => str_bool v
      | Some (PyBool b) => b
      | None => str_bool s
      end
  end.

(** A variable of a row: [None] when the solution leaves it unbound. *)
Definition binding : Type := option term.

(** [bool(row.x)]. *)
Definition bound_truthy (b : binding) : bool :=
  match b with
  | Some t => truthy t
  | None => false
  end.

(** What an f-string writes for [{row.x}]: the text of a term, ["None"] for
    an unbound variable. *)
Definition format (b : binding) : string :=
  match b with
  | Some t => text t
  | None => "None"
  end.

End Rdflib.

Import Rdflib.

(** ** ontopy: the ontology *)

Module Ontopy.

(** ["*" in iri]: the test by which the search of owlready2 decides between
    an exact comparison of the IRI and a [GLOB] pattern. *)
Fixpoint has_star (s : string) : bool :=
  match s with
  | EmptyString => false
  | String c s' => Ascii.eqb c "*" || has_star s'
  end.

(** No IRI of the table is itself a pattern. *)
Definition plain_keys (m : gmap string (list string)) : bool :=
  forallb (fun kv => negb (has_star (fst kv))) (map_to_list m).

(** The two ways the notebooks reach into the loaded ontology:
    [battinfo.<name>.iri] and [battinfo.search_one(iri=...)].  An entity
    found by IRI is represented by its [prefLabel] list, which may be
    empty.  [by_iri] is the table of the entities by their IRI, none of which
    holds a ["*"]; [by_glob] is the first entity the ontology returns for a
    search with a pattern, which is for the library to decide. *)
Record Ontology : Type := {
  by_label : gmap string string;
  by_iri : gmap string (list string);
  by_glob : string -> option (list string);
  iri_plain : plain_keys by_iri = true
}.

(** Two ontologies that answer every search by IRI alike. *)
Definition same_search (o1 o2 : Ontology) : Prop :=
  by_iri o1 = by_iri o2 /\ forall pattern, by_glob o1 pattern = by_glob o2 pattern.

(** [battinfo.<name>.iri]. *)
Definition iri_of (o : Ontology) (label : string) : result string :=
  match by_label o !! label with
  | Some i => Ok i
  | None => Raise AttributeError
  end.

(** [battinfo.search_one(iri=x)]: the entity with that IRI, or [None] when
    there is none; an [x] that holds a ["*"] is a pattern and the answer is
    the first entity whose IRI matches it.  For an unbound variable [x] is
    [None], on which the search ends in [AttributeError]. *)
Definition search_one (o : Ontology) (x : binding) : result (option (list string)) :=
  match x with
  | Some t =>
      if has_star (text t) then Ok (by_glob o (text t)) else Ok (by_iri o !! text t)
  | None => Raise AttributeError
  end.

(** [entity.prefLabel[0]], with [entity] possibly [None]. *)
Definition prefLabel0 (entity : option (list string)) : result string :=
  match entity with
  | None => Raise AttributeError
  | Some labels => index0 labels
  end.

(** [battinfo.search_one(iri=x).prefLabel[0]] *)
Definition label_of (o : Ontology) (x : binding) : result string :=
  entity ← search_one o x;
  prefLabel0 entity.


End Ontopy.

Import Ontopy.

(** ** The schema notebook: display cell *)

Module Schema.

(** A solution of
    [SELECT ?columnName ?columnTitle ?propertyType ?propertyClass ?unit ?required]. *)
Record Row : Type := {
  columnName : binding;
  columnTitle : binding;
  propertyType : binding;
  propertyClass : binding;
  unit : binding;
  required : binding
}.

(** [row.required and row.required.lower() == "true"] *)
Definition required_test (row : Row) : bool :=
  match required row with
  | None => false
  | Some t => truthy t && String.eqb (lower (text t)) "true"
  end.

Definition required_status (row : Row) : string :=
  if required_test row then "Required" else "Optional".


Definition line (row : Row) (property_name unit_name status : string) : string :=
  "Column: " +:+ format (columnName row) +:+ " (" +:+ format (columnTitle row) +:+ "), "
  +:+ "Property Class: " +:+ property_name +:+ ", Unit: " +:+ unit_name
  +:+ ", Required: " +:+ status.

(** The body of [for row in results]. *)
Definition format_row (battinfo : option Ontology) (row : Row) : result string :=
  let status := required_status row in
  o ← name battinfo;
  property_name ← label_of o (propertyClass row);
  o' ← name battinfo;
  unit_name ← label_of o' (unit row);
  Ok (line row property_name unit_name status).

(** The loop, threading the list [output]. *)
Fixpoint loop (battinfo : option Ontology) (rows : list Row) (output : list string)
  : result (list string) :=
  match rows with
  | [] => Ok output
  | row :: rest =>
      l ← format_row battinfo row;
      loop battinfo rest (output ++ [l])
  end.

Definition header : string := "Time-Series Test Data Schema:".

(** The whole cell: the lines written to standard output, or the exception
    that ends the cell before anything is printed. *)
Definition display (battinfo : option Ontology) (results : list Row)
  : result (list string) :=
  output ← loop battinfo results [];
  Ok (header :: output).

End Schema.

(** ** The electrolyte notebook: display cell *)

Module Electrolyte.

(** A solution of
    [SELECT ?electrolyte ?electrolyteLabel ?component ?amount ?componentLabel]. *)
Record Row : Type := {
  electrolyte : binding;
  electrolyteLabel : binding;
  component : binding;
  amount : binding;
  componentLabel : binding
}.

(** [x if x else y] on two variables of a row. *)
Definition or_else (x y : binding) : binding :=
  if bound_truthy x then x else y.

Definition component_label (row : Row) : binding :=
  or_else (componentLabel row) (component row).

Definition electrolyte_label_of (row : Row) : binding :=
  or_else (electrolyteLabel row) (electrolyte row).

Definition line (row : Row) : string :=
  "Component: " +:+ format (component_label row)
  +:+ ", Volume Fraction: " +:+ format (amount row).

(** The global names the cell assigns and reads again after the loop.  They
    outlive the cell: an execution finds them as the execution before left
    them, and in a kernel where the cell has not run yet [electrolyte_label]
    is unbound ([None]). *)
Record Locals : Type := {
  electrolyte_label : option binding;
  output : list string
}.

Definition fresh : Locals := {| electrolyte_label := None; output := [] |}.

(** [output = []], the first statement of the cell. *)
Definition enter (st : Locals) : Locals :=
  {| electrolyte_label := electrolyte_label st; output := [] |}.

(** The body of [for row in results]. *)
Definition step (st : Locals) (row : Row) : Locals :=
  {| electrolyte_label := Some (electrolyte_label_of row);
     output := output st ++ [line row] |}.

Definition loop (rows : list Row) (st : Locals) : Locals :=
  fold_left step rows st.

(** The globals an execution of the cell leaves behind, whether or not the
    [print] after the loop raises. *)
Definition globals_after (st : Locals) (results : list Row) : Locals :=
  loop results (enter st).

(** An execution of the cell on the globals [st] of the kernel:
    [print(f"Electrolyte: {electrolyte_label}")] and the lines of [output]. *)
Definition display_from (st : Locals) (results : list Row) : result (list string) :=
  let st' := globals_after st results in
  lbl ← name (electrolyte_label st');
  Ok (("Electrolyte: " +:+ format lbl) :: output st').

(** The first execution of the cell in a kernel, as in a run of all cells;
    it never consults the ontology. *)
Definition display (battinfo : option Ontology) (results : list Row)
  : result (list string) :=
  display_from fresh results.

End Electrolyte.

(** ** The SPARQL text of both notebooks *)

Module Query.

Definition nl : string := String (ascii_of_nat 10) EmptyString.

(** Lines of a triple-quoted string: each one ends in a newline. *)
Fixpoint lines (ls : list string) : string :=
  match ls with
  | [] => EmptyString
  | l :: rest => l +:+ nl +:+ lines rest
  end.

(** Schema notebook, "Step 4".  The only interpolation is
    [battinfo.hasMeasurementUnit.iri]. *)
Definition schema (o : Ontology) : result string :=
  unit_iri ← iri_of o "hasMeasurementUnit";
  Ok (lines [
    EmptyString;
    "PREFIX emmo: <https://w3id.org/emmo/domain/battery/>";
    "PREFIX csvw: <http://www.w3.org/ns/csvw#>";
    "PREFIX rdfs: <http://www.w3.org/2000/01/rdf-schema#>";
    "SELECT ?columnName ?columnTitle ?propertyType ?propertyClass ?unit ?required WHERE {";
    "    ?column a csvw:Column ;";
    "            csvw:name ?columnName ;";
    "            csvw:titles ?columnTitle ;";
    "            csvw:propertyUrl ?propertyType .";
    "    OPTIONAL { ?column csvw:required ?required . }";
    "    OPTIONAL { ?column <" +:+ unit_iri +:+ "> ?unit . }";
    "    OPTIONAL { ?propertyType a ?propertyClass . }";
    "}"
  ]).

(** Electrolyte notebook, "Step 4": six interpolated IRIs, looked up in the
    order they appear. *)
Definition electrolyte (o : Ontology) : result string :=
  c ← iri_of o "Electrolyte";
  solvent ← iri_of o "hasSolvent";
  constituent ← iri_of o "hasConstituent";
  property ← iri_of o "hasProperty";
  numerical ← iri_of o "hasNumericalPart";
  number ← iri_of o "hasNumberValue";
  Ok (lines [
    EmptyString;
    "PREFIX emmo: <https://w3id.org/emmo/domain/battery/>";
    "PREFIX rdfs: <http://www.w3.org/2000/01/rdf-schema#>";
    "SELECT ?electrolyte ?electrolyteLabel ?component ?amount ?componentLabel WHERE {";
    "    ?electrolyte a <" +:+ c +:+ "> ;";
    "                rdfs:label ?electrolyteLabel ;";
    "                <" +:+ solvent +:+ "> ?solvent .";
    "    ?solvent <" +:+ constituent +:+ "> ?component .";
    "    ?component <" +:+ property +:+ "> ?property .";
    "    ?component rdfs:label ?componentLabel .";
    "    ?property <" +:+ numerical +:+ "> ?value .";
    "    ?value <" +:+ number +:+ "> ?amount .";
    "}"
  ]).

End Query.

(** ** A notebook as a sequence of cells over the kernel's namespace *)

Section Notebook.

(** The collaborators.  The triples and the document are opaque to the
    notebooks; the graph is the set of triples the parser has added. *)
Context {Triple : Type} `{Countable Triple}.
Context {Document Row : Type}.

(** [get_ontology(url).load()]: the ontology, or a failure of the fetch. *)
Variable get_ontology : result Ontology.
(** [json.load(file)] on the metadata file. *)
Variable json_load : result Document.
(** [g.parse(data=..., format="json-ld")]: the triples added to the graph
    and the exception, if the parser gives up. *)
Variable jsonld_parse : Document -> gset Triple * option exn.
(** [g.query(q)] for a [SELECT]: the solutions, read off the triples. *)
Variable sparql_select : gset Triple -> string -> result (list Row).
(** The two cells that differ between the notebooks. *)
Variable build_query : Ontology -> result string.
Variable display : option Ontology -> list Row -> result (list string).

(** The global names the first five cells assign ([None]: not assigned yet)
    and the text written to standard output so far, line by line.  The names
    the display cell assigns for itself are not among them: [display] is the
    display cell at its first execution in the kernel. *)
Record Kernel : Type := {
  battinfo : option Ontology;
  jsonld_data : option Document;
  g : option (gset Triple);
  query : option string;
  results : option (list Row);
  stdout : list string
}.

Definition fresh_kernel : Kernel :=
  {| battinfo := None; jsonld_data := None; g := None; query := None;
     results := None; stdout := [] |}.

(** A cell leaves a namespace behind and possibly an uncaught exception. *)
Definition cell : Type := Kernel -> Kernel * option exn.

Definition set_battinfo (k : Kernel) (v : Ontology) : Kernel :=
  {| battinfo := Some v; jsonld_data := jsonld_data k; g := g k;
     query := query k; results := results k; stdout := stdout k |}.
Definition set_jsonld_data (k : Kernel) (v : Document) : Kernel :=
  {| battinfo := battinfo k; jsonld_data := Some v; g := g k;
     query := query k; results := results k; stdout := stdout k |}.
Definition set_g (k : Kernel) (v : gset Triple) : Kernel :=
  {| battinfo := battinfo k; jsonld_data := jsonld_data k; g := Some v;
     query := query k; results := results k; stdout := stdout k |}.
Definition set_query (k : Kernel) (v : string) : Kernel :=
  {| battinfo := battinfo k; jsonld_data := jsonld_data k; g := g k;
     query := Some v; results := results k; stdout := stdout k |}.
Definition set_results (k : Kernel) (v : list Row) : Kernel :=
  {| battinfo := battinfo k; jsonld_data := jsonld_data k; g := g k;
     query := query k; results := Some v; stdout := stdout k |}.
Definition print (k : Kernel) (ls : list string) : Kernel :=
  {| battinfo := battinfo k; jsonld_data := jsonld_data k; g := g k;
     query := query k; results := results k; stdout := stdout k ++ ls |}.

(** [x = <expr>]: assign on success, leave the namespace on an exception. *)
Definition assign {A} (set : Kernel -> A -> Kernel) (k : Kernel) (r : result A)
  : Kernel * option exn :=
  match r with
  | Ok v => (set k v, None)
  | Raise e => (k, Some e)
  end.

(** Step 1: [battinfo = get_ontology(...).load()] *)
Definition cell_load_ontology : cell :=
  fun k => assign set_battinfo k get_ontology.

(** Step 2: [jsonld_data = json.load(file)] *)
Definition cell_load_file : cell :=
  fun k => assign set_jsonld_data k json_load.

(** Step 3: [g = Graph()] then [g.parse(data=json.dumps(jsonld_data), ...)] *)
Definition cell_parse : cell :=
  fun k =>
    let k0 := set_g k ∅ in
    match jsonld_data k0 with
    | None => (k0, Some NameError)
    | Some doc =>
        let '(triples, e) := jsonld_parse doc in
        (set_g k0 (∅ ∪ triples), e)
    end.

(** Step 4: [query = f...], the interpolated SPARQL text *)
Definition cell_build_query : cell :=
  fun k => assign set_query k (o ← name (battinfo k); build_query o).

(** Step 5: [results = g.query(query)] *)
Definition cell_execute : cell :=
  fun k =>
    assign set_results k
      (graph ← name (g k); q ← name (query k); sparql_select graph q).

(** Step 6: what the display cell prints, or the exception that ends it
    before the first [print]. *)
Definition cell_display_out (k : Kernel) : result (list string) :=
  rows ← name (results k);
  display (battinfo k) rows.

Definition cell_display : cell :=
  fun k =>
    match cell_display_out k with
    | Ok ls => (print k ls, None)
    | Raise e => (k, Some e)
    end.

(** Cells run in order; the first uncaught exception stops the run. *)
Fixpoint run_cells (cs : list cell) (k : Kernel) : Kernel * option exn :=
  match cs with
  | [] => (k, None)
  | c :: rest =>
      match c k with
      | (k', None) => run_cells rest k'
      | (k', Some e) => (k', Some e)
      end
  end.

Definition after_parse : list cell :=
  [cell_build_query; cell_execute; cell_display].

Definition notebook : list cell :=
  [cell_load_ontology; cell_load_file; cell_parse] ++ after_parse.

Definition run_all : Kernel * option exn := run_cells notebook fresh_kernel.

(** A cell that leaves the graph as it found it: [g] names the same set
    of triples after the cell as before, whether the cell raises or not. *)
Definition keeps_graph (c : cell) : Prop :=
  forall k, g (fst (c k)) = g k.

End Notebook.

(** ** Sample data: the rows and labels of the recorded runs *)

Module Sample.

Definition row_with_required (r : binding) : Schema.Row :=
  {| Schema.columnName := Some (Literal "voltage_volt" Plain);
     Schema.columnTitle := Some (Literal "Voltage  /  V" Plain);
     Schema.propertyType := Some (BNode "b0");
     Schema.propertyClass := None;
     Schema.unit := None;
     Schema.required := r |}.

(** A column of the time-series schema, marked [required: true]. *)
Definition column (col title : string) (cls unit_iri : string) : Schema.Row :=
  {| Schema.columnName := Some (Literal col Plain);
     Schema.columnTitle := Some (Literal title Plain);
     Schema.propertyType := Some (BNode col);
     Schema.propertyClass := Some (URIRef cls);
     Schema.unit := Some (URIRef unit_iri);
     Schema.required := Some (Literal "true" XSD_boolean) |}.

Definition columns (t1 t2 t3 c1 c2 c3 u1 u2 u3 : string) : list Schema.Row :=
  [ column "test_time_millisecond" t1 c1 u1;
    column "voltage_volt" t2 c2 u2;
    column "current_ampere" t3 c3 u3 ].

(** Six entities of the ontology, keyed by stand-in IRIs. *)
Definition labels : gmap string (list string) :=
  list_to_map
    [ ("emmo:TestTime", ["TestTime"]);
      ("emmo:Voltage", ["Voltage"; "ElectricPotential"]);
      ("emmo:ElectricCurrent", ["ElectricCurrent"]);
      ("emmo:MilliSecond", ["MilliSecond"]);
      ("emmo:Volt", ["Volt"]);
      ("emmo:Ampere", ["Ampere"]) ].

(** A pattern is matched against the IRIs up to its first ["*"]; enough for
    the sample, whose patterns end in one. *)
Fixpoint matches (pattern iri : string) : bool :=
  match pattern, iri with
  | String "*" _, _ => true
  | String c p, String d i => Ascii.eqb c d && matches p i
  | EmptyString, EmptyString => true
  | _, _ => false
  end.

Definition first_match (pattern : string) : option (list string) :=
  snd <$> List.find (fun kv => matches pattern (fst kv))
            [ ("emmo:TestTime", ["TestTime"]);
              ("emmo:Voltage", ["Voltage"; "ElectricPotential"]);
              ("emmo:ElectricCurrent", ["ElectricCurrent"]);
              ("emmo:MilliSecond", ["MilliSecond"]);
              ("emmo:Volt", ["Volt"]);
              ("emmo:Ampere", ["Ampere"]) ].

Definition ontology : Ontology :=
  {| by_label := {[ "hasMeasurementUnit" := "emmo:hasMeasurementUnit" ]};
     by_iri := labels;
     by_glob := first_match;
     iri_plain := eq_refl |}.

(** The same entities under no name at all. *)
Definition nameless : Ontology :=
  {| by_label := ∅; by_iri := labels; by_glob := first_match; iri_plain := eq_refl |}.

(** One entity without labels. *)
Definition bare : Ontology :=
  {| by_label := ∅; by_iri := {[ "emmo:Bare" := [] ]};
     by_glob := fun _ => None; iri_plain := eq_refl |}.

Definition recorded_columns : list Schema.Row :=
  columns "Test Time  /  ms" "Voltage  /  V" "Current  /  A"
    "emmo:TestTime" "emmo:Voltage" "emmo:ElectricCurrent"
    "emmo:MilliSecond" "emmo:Volt" "emmo:Ampere".

(** A component row of the electrolyte query. *)
Definition solvent (e c : binding) (elabel clabel : string) (amt : term)
  : Electrolyte.Row :=
  {| Electrolyte.electrolyte := e;
     Electrolyte.electrolyteLabel := Some (Literal elabel Plain);
     Electrolyte.component := c;
     Electrolyte.amount := Some amt;
     Electrolyte.componentLabel := Some (Literal clabel Plain) |}.

Definition lp30 : string := "1M LiPF6 in DMC:EC:EMC 1:1:1 (vol.) + 2 wt% VC".

Definition solvents (e c1 c2 c3 : binding) (d1 d2 d3 : datatype)
  : list Electrolyte.Row :=
  [ solvent e c1 lp30 "ethylene carbonate" (Literal "0.334" d1);
    solvent e c2 lp30 "diethylene carbonate" (Literal "0.333" d2);
    solvent e c3 lp30 "dimethyl carbonate" (Literal "0.333" d3) ].

(** A row whose two labels are bound to the empty string. *)
Definition unlabelled : Electrolyte.Row :=
  {| Electrolyte.electrolyte := Some (URIRef "urn:uuid:e");
     Electrolyte.electrolyteLabel := Some (Literal EmptyString Plain);
     Electrolyte.component := Some (URIRef "urn:uuid:c");
     Electrolyte.amount := Some (Literal "0.5" Plain);
     Electrolyte.componentLabel := Some (Literal EmptyString Plain) |}.

(** A column whose unit is no entity of [ontology]. *)
Definition unknown_unit : Schema.Row :=
  column "voltage_volt" "Voltage  /  V" "emmo:Voltage" "emmo:NoSuchUnit".

(** Two kernels of the schema notebook that agree on [results] and on the
    labels of the ontology and on nothing else. *)
Definition kernel_a : @Kernel nat _ _ bool Schema.Row :=
  {| battinfo := Some ontology; jsonld_data := Some true; g := Some {[ 1 ]};
     query := Some "SELECT"; results := Some recorded_columns; stdout := [] |}.

Definition kernel_b : @Kernel nat _ _ bool Schema.Row :=
  {| battinfo := Some nameless;
     jsonld_data := None; g := Some {[ 2; 3 ]};
     query := None; results := Some recorded_columns; stdout := ["earlier output"] |}.

(** The three solvent rows of the recorded run. *)
Definition recorded_solvents : list Electrolyte.Row :=
  solvents (Some (URIRef "urn:uuid:e"))
    (Some (URIRef "urn:uuid:ec")) (Some (URIRef "urn:uuid:dec"))
    (Some (URIRef "urn:uuid:dmc"))
    Plain Plain Plain.

End Sample.

(** * Properties *)

(** ** Python and rdflib helpers *)





(** The empty lexical form is falsy under every datatype. *)
Lemma empty_literal_falsy (dt : datatype) : truthy (Literal EmptyString dt) = false.
Proof. destruct dt; reflexivity. Qed.






(** The status on the values the query can bind: typed booleans, text in any
    case, an IRI, and an unbound variable. *)
Example required_status_samples :
  map (fun r => Schema.required_status (Sample.row_with_required r))
    [ Some (Literal "true" XSD_boolean); Some (Literal "TRUE" Plain);
      Some (Literal "True" XSD_string); Some (URIRef "true");
      Some (Literal "false" XSD_boolean); Some (Literal "1" XSD_boolean);
      Some (Literal "yes" Plain); Some (Literal EmptyString Plain); None ]
  = [ "Required"; "Required"; "Required"; "Required";
      "Optional"; "Optional"; "Optional"; "Optional"; "Optional" ].
Proof. reflexivity. Qed.

(** ** The schema formatter *)

Lemma format_row_loaded (o : Ontology) (row : Schema.Row) :
  Schema.format_row (Some o) row =
    (property_name ← label_of o (Schema.propertyClass row);
     unit_name ← label_of o (Schema.unit row);
     Ok (Schema.line row property_name unit_name (Schema.required_status row))).
Proof. reflexivity. Qed.

(** One failing row is enough for the loop to end in an exception. *)
Lemma loop_raises (b : option Ontology) (rows : list Schema.Row) (row : Schema.Row) :
  In row rows -> raises (Schema.format_row b row) ->
  forall out, raises (Schema.loop b rows out).
Proof.
  intros Hin [e He]. induction rows as [|r rest IH]; [destruct Hin|].
  intros out. simpl. destruct Hin as [-> | Hin].
  - rewrite He. now exists e.
  - destruct (Schema.format_row b r) as [l|e']; simpl; [now apply IH | now exists e'].
Qed.

Lemma display_raises (b : option Ontology) (rows : list Schema.Row) (row : Schema.Row) :
  In row rows -> raises (Schema.format_row b row) -> raises (Schema.display b rows).
Proof.
  intros Hin Hr. destruct (loop_raises b rows row Hin Hr []) as [e He].
  exists e. unfold Schema.display. now rewrite He.
Qed.

(** The IRI of an entity is no pattern, so the search compares it exactly. *)
Lemma entity_iri_plain (o : Ontology) (i : string) (ls : list string) :
  by_iri o !! i = Some ls -> has_star i = false.
Proof.
  intros Hi. pose proof (iri_plain o) as Hplain. unfold plain_keys in Hplain.
  rewrite forallb_forall in Hplain.
  apply elem_of_map_to_list, list_elem_of_In, Hplain in Hi.
  now apply negb_true_iff in Hi.
Qed.

Lemma search_one_plain (o : Ontology) (t : term) :
  has_star (text t) = false -> search_one o (Some t) = Ok (by_iri o !! text t).
Proof. intros Hs. unfold search_one. now rewrite Hs. Qed.

(** An identifier that is bound, is no pattern and names no entity:
    [search_one] returns [None] and [.prefLabel] raises. *)
Lemma label_of_absent (o : Ontology) (x : binding) (t : term) :
  x = Some t -> has_star (text t) = false -> by_iri o !! text t = None ->
  label_of o x = Raise AttributeError.
Proof.
  intros -> Hs Ht. unfold label_of. rewrite (search_one_plain o t Hs). simpl.
  now rewrite Ht.
Qed.

Lemma label_of_present (o : Ontology) (x : binding) (t : term)
    (l : string) (ls : list string) :
  x = Some t -> by_iri o !! text t = Some (l :: ls) -> label_of o x = Ok l.
Proof.
  intros -> Ht. unfold label_of.
  rewrite (search_one_plain o t (entity_iri_plain o _ _ Ht)). simpl. now rewrite Ht.
Qed.


(** C3.  The schema scenario: three required columns whose property classes
    and units are labelled TestTime/Voltage/ElectricCurrent and
    MilliSecond/Volt/Ampere in the ontology.  The list [output] holds exactly
    three lines of the form "Column: name (title), Property Class: class,
    Unit: unit, Required: Required", and the cell prints them under its
    heading. *)
Theorem schema_scenario (o : Ontology) (t1 t2 t3 c1 c2 c3 u1 u2 u3 : string)
    (xc1 xc2 xc3 xu1 xu2 xu3 : list string) :
  by_iri o !! c1 = Some ("TestTime" :: xc1) ->
  by_iri o !! c2 = Some ("Voltage" :: xc2) ->
  by_iri o !! c3 = Some ("ElectricCurrent" :: xc3) ->
  by_iri o !! u1 = Some ("MilliSecond" :: xu1) ->
  by_iri o !! u2 = Some ("Volt" :: xu2) ->
  by_iri o !! u3 = Some ("Ampere" :: xu3) ->
  let rows := Sample.columns t1 t2 t3 c1 c2 c3 u1 u2 u3 in
  let output :=
    [ "Column: test_time_millisecond (" +:+ t1
        +:+ "), Property Class: TestTime, Unit: MilliSecond, Required: Required";
      "Column: voltage_volt (" +:+ t2
        +:+ "), Property Class: Voltage, Unit: Volt, Required: Required";
      "Column: current_ampere (" +:+ t3
        +:+ "), Property Class: ElectricCurrent, Unit: Ampere, Required: Required" ] in
  Schema.loop (Some o) rows [] = Ok output /\
  List.length output = 3 /\
  Schema.display (Some o) rows = Ok ("Time-Series Test Data Schema:" :: output).
Proof.
  intros H1 H2 H3 H4 H5 H6 rows output.
  assert (Hloop : Schema.loop (Some o) rows [] = Ok output).
  { subst rows output. unfold Sample.columns. cbn [Schema.loop].
    rewrite !format_row_loaded.
    cbn [Sample.column Schema.propertyClass Schema.unit].
    rewrite (label_of_present o _ (URIRef c1) _ _ eq_refl H1),
      (label_of_present o _ (URIRef c2) _ _ eq_refl H2),
      (label_of_present o _ (URIRef c3) _ _ eq_refl H3),
      (label_of_present o _ (URIRef u1) _ _ eq_refl H4),
      (label_of_present o _ (URIRef u2) _ _ eq_refl H5),
      (label_of_present o _ (URIRef u3) _ _ eq_refl H6).
    reflexivity. }
  split; [exact Hloop|]. split; [reflexivity|].
  unfold Schema.display. rewrite Hloop. reflexivity.
Qed.

Lemma schema_scenario_witness :
  Schema.display (Some Sample.ontology) Sample.recorded_columns =
    Ok [ "Time-Series Test Data Schema:";
         "Column: test_time_millisecond (Test Time  /  ms), Property Class: TestTime, Unit: MilliSecond, Required: Required";
         "Column: voltage_volt (Voltage  /  V), Property Class: Voltage, Unit: Volt, Required: Required";
         "Column: current_ampere (Current  /  A), Property Class: ElectricCurrent, Unit: Ampere, Required: Required" ].
Proof.
  exact (proj2 (proj2
    (schema_scenario Sample.ontology
       "Test Time  /  ms" "Voltage  /  V" "Current  /  A"
       "emmo:TestTime" "emmo:Voltage" "emmo:ElectricCurrent"
       "emmo:MilliSecond" "emmo:Volt" "emmo:Ampere"
       [] ["ElectricPotential"] [] [] [] []
       eq_refl eq_refl eq_refl eq_refl eq_refl eq_refl))).
Defined.

(** ** The electrolyte formatter *)

(** The loop appends one line per row, in the order of the rows, and leaves
    [electrolyte_label] bound by the last row it has seen. *)
Lemma electrolyte_loop_spec (rows : list Electrolyte.Row) :
  forall st,
    Electrolyte.loop rows st =
      {| Electrolyte.electrolyte_label :=
           match last rows with
           | Some r => Some (Electrolyte.electrolyte_label_of r)
           | None => Electrolyte.electrolyte_label st
           end;
         Electrolyte.output := Electrolyte.output st ++ map Electrolyte.line rows |}.
Proof.
  unfold Electrolyte.loop.
  induction rows as [|row rest IH]; intros st.
  - simpl. rewrite app_nil_r. now destruct st.
  - cbn [fold_left map]. rewrite IH. cbn [Electrolyte.step Electrolyte.electrolyte_label
      Electrolyte.output]. rewrite <- app_assoc. f_equal.
    destruct rest as [|r' rest']; [reflexivity|].
    change (last (row :: r' :: rest')) with (last (r' :: rest')).
    destruct (last (r' :: rest')) eqn:Hl; [reflexivity|].
    now apply last_None in Hl.
Qed.

Lemma electrolyte_display_nonempty (b : option Ontology)
    (rows : list Electrolyte.Row) (r : Electrolyte.Row) :
  last rows = Some r ->
  Electrolyte.display b rows =
    Ok (("Electrolyte: " +:+ format (Electrolyte.electrolyte_label_of r))
          :: map Electrolyte.line rows).
Proof.
  intros Hl. unfold Electrolyte.display, Electrolyte.display_from,
    Electrolyte.globals_after.
  rewrite electrolyte_loop_spec, Hl. reflexivity.
Qed.

(** On a non-empty result the cell overwrites whatever an earlier execution
    left in [electrolyte_label] and [output]. *)
Lemma electrolyte_display_from_nonempty (st : Electrolyte.Locals)
    (rows : list Electrolyte.Row) (r : Electrolyte.Row) :
  last rows = Some r ->
  Electrolyte.display_from st rows =
    Ok (("Electrolyte: " +:+ format (Electrolyte.electrolyte_label_of r))
          :: map Electrolyte.line rows).
Proof.
  intros Hl. unfold Electrolyte.display_from, Electrolyte.globals_after.
  rewrite electrolyte_loop_spec, Hl. reflexivity.
Qed.

(** Without rows the cell prints the label an earlier execution left, if
    there is one. *)
Lemma electrolyte_display_from_empty (st : Electrolyte.Locals) :
  Electrolyte.display_from st [] =
    match Electrolyte.electrolyte_label st with
    | Some lbl => Ok [ "Electrolyte: " +:+ format lbl ]
    | None => Raise NameError
    end.
Proof.
  unfold Electrolyte.display_from, Electrolyte.globals_after. simpl.
  now destruct (Electrolyte.electrolyte_label st).
Qed.


(** A falsy label, unbound or not, gives way to the identifier. *)
Lemma or_else_falsy (x y : binding) :
  bound_truthy x = false -> Electrolyte.or_else x y = y.
Proof. unfold Electrolyte.or_else. now intros ->. Qed.



(** C4.  The electrolyte scenario: three component rows sharing one
    electrolyte label.  The cell prints the electrolyte label once and then
    one "Component: ..., Volume Fraction: ..." line per row, in the order of
    the rows; the identifiers bound to the electrolyte and the components and
    the datatypes of the amounts play no part. *)
Theorem electrolyte_scenario (b : option Ontology) (e c1 c2 c3 : binding)
    (d1 d2 d3 : datatype) :
  Electrolyte.display b (Sample.solvents e c1 c2 c3 d1 d2 d3) =
    Ok [ "Electrolyte: 1M LiPF6 in DMC:EC:EMC 1:1:1 (vol.) + 2 wt% VC";
         "Component: ethylene carbonate, Volume Fraction: 0.334";
         "Component: diethylene carbonate, Volume Fraction: 0.333";
         "Component: dimethyl carbonate, Volume Fraction: 0.333" ].
Proof. reflexivity. Qed.

(** C8.  For a non-empty result, the "Electrolyte:" line shows the label
    chosen for the last row; the labels of the rows before it are not
    printed, whatever they are. *)
Theorem electrolyte_label_last (b : option Ontology)
    (rows : list Electrolyte.Row) (r : Electrolyte.Row) :
  last rows = Some r ->
  exists lines,
    Electrolyte.display b rows = Ok (("Electrolyte: " +:+ format (Electrolyte.electrolyte_label_of r)) :: lines)
    /\ lines = map Electrolyte.line rows
    /\ forall earlier, Electrolyte.display b (earlier ++ rows) =
         Ok (("Electrolyte: " +:+ format (Electrolyte.electrolyte_label_of r))
               :: map Electrolyte.line (earlier ++ rows)).
Proof.
  intros Hl. exists (map Electrolyte.line rows). split; [|split].
  - now apply electrolyte_display_nonempty.
  - reflexivity.
  - intros earlier. apply electrolyte_display_nonempty.
    rewrite last_app, Hl. reflexivity.
Qed.

Lemma electrolyte_label_last_witness :
  Electrolyte.display None
    [ Sample.solvent (Some (BNode "e1")) (Some (BNode "c1")) "first" "EC" (Literal "0.5" Plain);
      Sample.solvent (Some (BNode "e2")) (Some (BNode "c2")) "second" "DMC" (Literal "0.5" Plain) ]
  = Ok [ "Electrolyte: second";
         "Component: EC, Volume Fraction: 0.5";
         "Component: DMC, Volume Fraction: 0.5" ].
Proof.
  destruct (electrolyte_label_last None
    [ Sample.solvent (Some (BNode "e1")) (Some (BNode "c1")) "first" "EC" (Literal "0.5" Plain);
      Sample.solvent (Some (BNode "e2")) (Some (BNode "c2")) "second" "DMC" (Literal "0.5" Plain) ]
    (Sample.solvent (Some (BNode "e2")) (Some (BNode "c2")) "second" "DMC" (Literal "0.5" Plain))
    eq_refl) as (lines & Hd & Hlines & _).
  rewrite Hd, Hlines. reflexivity.
Defined.

(** C9.  A label bound to the empty string is falsy under every datatype, so
    the row shows the raw identifier of the component (of the electrolyte) in
    its place. *)
Theorem empty_label_falls_back (row : Electrolyte.Row) (dt : datatype) :
  (Electrolyte.componentLabel row = Some (Literal EmptyString dt) ->
     Electrolyte.component_label row = Electrolyte.component row /\
     Electrolyte.line row =
       "Component: " +:+ format (Electrolyte.component row)
       +:+ ", Volume Fraction: " +:+ format (Electrolyte.amount row))
  /\ (Electrolyte.electrolyteLabel row = Some (Literal EmptyString dt) ->
        Electrolyte.electrolyte_label_of row = Electrolyte.electrolyte row /\
        forall b, Electrolyte.display b [row] =
          Ok [ "Electrolyte: " +:+ format (Electrolyte.electrolyte row);
               Electrolyte.line row ]).
Proof.
  split; intros Hl.
  - assert (Hc : Electrolyte.component_label row = Electrolyte.component row).
    { unfold Electrolyte.component_label. apply or_else_falsy.
      rewrite Hl. apply empty_literal_falsy. }
    split; [exact Hc|]. unfold Electrolyte.line. now rewrite Hc.
  - assert (He : Electrolyte.electrolyte_label_of row = Electrolyte.electrolyte row).
    { unfold Electrolyte.electrolyte_label_of. apply or_else_falsy.
      rewrite Hl. apply empty_literal_falsy. }
    split; [exact He|]. intros b.
    rewrite (electrolyte_display_nonempty b [row] row eq_refl), He. reflexivity.
Qed.

Lemma empty_label_falls_back_witness :
  Electrolyte.display None [Sample.unlabelled] =
    Ok [ "Electrolyte: urn:uuid:e"; "Component: urn:uuid:c, Volume Fraction: 0.5" ].
Proof.
  destruct (empty_label_falls_back Sample.unlabelled Plain) as [Hc He].
  destruct (Hc eq_refl) as [_ Hline]. destruct (He eq_refl) as [_ Hd].
  rewrite Hd, Hline. reflexivity.
Defined.

(** ** Missing labels *)

(** The specification's sentence that a term without an entity in the
    ontology is displayed by its raw identifier fails on the schema notebook:
    the unit of this column is unknown to the ontology and the row, and with
    it the cell, ends in [AttributeError]. *)
Lemma absent_term_counterexample :
  Schema.unit Sample.unknown_unit = Some (URIRef "emmo:NoSuchUnit") /\
  by_iri Sample.ontology !! "emmo:NoSuchUnit" = None /\
  Schema.format_row (Some Sample.ontology) Sample.unknown_unit = Raise AttributeError /\
  Schema.display (Some Sample.ontology) [Sample.unknown_unit] = Raise AttributeError /\
  forall l, Schema.format_row (Some Sample.ontology) Sample.unknown_unit <> Ok l.
Proof. repeat split; try reflexivity. intros l. discriminate. Qed.

(** C2, as the code has it.  In the schema notebook there is no fallback to
    the raw identifier.  A row whose property class is bound to an identifier
    without ["*"] that no entity of the ontology carries, or whose property
    class has a label and whose unit is bound to such an identifier, ends in
    [AttributeError] and leaves no line; the cell ends in an exception for
    any result that holds the row. *)
Theorem absent_term_policy (o : Ontology) (rows : list Schema.Row)
    (row : Schema.Row) (t : term) :
  In row rows ->
  has_star (text t) = false ->
  by_iri o !! text t = None ->
  Schema.propertyClass row = Some t \/
  ((exists l, label_of o (Schema.propertyClass row) = Ok l) /\
   Schema.unit row = Some t) ->
  Schema.format_row (Some o) row = Raise AttributeError /\
  (forall l, Schema.format_row (Some o) row <> Ok l) /\
  raises (Schema.display (Some o) rows).
Proof.
  intros Hin Hs Ht Habs.
  assert (Hrow : Schema.format_row (Some o) row = Raise AttributeError).
  { rewrite format_row_loaded. destruct Habs as [Hp | [[l Hl] Hu]].
    - now rewrite (label_of_absent o _ t Hp Hs Ht).
    - now rewrite Hl, (label_of_absent o _ t Hu Hs Ht). }
  split; [exact Hrow|]. split.
  - intros l. rewrite Hrow. discriminate.
  - apply (display_raises _ rows row Hin). now exists AttributeError.
Qed.

Lemma absent_term_policy_witness :
  Schema.format_row (Some Sample.ontology) Sample.unknown_unit = Raise AttributeError /\
  raises (Schema.display (Some Sample.ontology)
            (Sample.recorded_columns ++ [Sample.unknown_unit])).
Proof.
  destruct (absent_term_policy Sample.ontology
              (Sample.recorded_columns ++ [Sample.unknown_unit])
              Sample.unknown_unit (URIRef "emmo:NoSuchUnit")) as (Hrow & _ & Hcell).
  - simpl. tauto.
  - reflexivity.
  - reflexivity.
  - right. split; [now exists "Voltage" | reflexivity].
  - split; [exact Hrow | exact Hcell].
Defined.

(** ** Cells and runs *)

Section Cells.

Context {Triple : Type} `{Countable Triple} {Document Row : Type}.
Implicit Types (k : @Kernel Triple _ _ Document Row).
Implicit Types (c : @cell Triple _ _ Document Row).

Lemma assign_query_keeps_graph k (r : result string) :
  g (fst (assign set_query k r)) = g k.
Proof. now destruct r. Qed.

Lemma assign_results_keeps_graph k (r : result (list Row)) :
  g (fst (assign set_results k r)) = g k.
Proof. now destruct r. Qed.

Lemma build_query_keeps_graph (build_query : Ontology -> result string) :
  keeps_graph (Row := Row) (Document := Document) (Triple := Triple)
    (cell_build_query build_query).
Proof. intros k. apply assign_query_keeps_graph. Qed.

Lemma execute_keeps_graph (sparql_select : gset Triple -> string -> result (list Row)) :
  keeps_graph (Document := Document) (cell_execute sparql_select).
Proof. intros k. apply assign_results_keeps_graph. Qed.

Lemma display_keeps_graph (display : option Ontology -> list Row -> result (list string)) :
  keeps_graph (Document := Document) (Triple := Triple) (cell_display display).
Proof.
  intros k. unfold cell_display. now destruct (cell_display_out display k).
Qed.

(** A run of graph-keeping cells keeps the graph, wherever it stops. *)
Lemma run_cells_keeps_graph (cs : list (@cell Triple _ _ Document Row)) :
  Forall keeps_graph cs -> keeps_graph (run_cells cs).
Proof.
  induction 1 as [|c cs Hc _ IH]; intros k; [reflexivity|].
  simpl. specialize (Hc k). destruct (c k) as [k' [e|]]; simpl in *.
  - exact Hc.
  - rewrite IH. exact Hc.
Qed.

Lemma run_cells_app (cs1 cs2 : list (@cell Triple _ _ Document Row)) k :
  run_cells (cs1 ++ cs2) k =
    match run_cells cs1 k with
    | (k', None) => run_cells cs2 k'
    | (k', Some e) => (k', Some e)
    end.
Proof.
  revert k. induction cs1 as [|c cs1 IH]; intros k; [reflexivity|].
  simpl. destruct (c k) as [k' [e|]]; [reflexivity | apply IH].
Qed.

Lemma after_parse_keeps_graph
    (sparql_select : gset Triple -> string -> result (list Row))
    (build_query : Ontology -> result string)
    (display : option Ontology -> list Row -> result (list string)) :
  keeps_graph (Document := Document)
    (run_cells (after_parse sparql_select build_query display)).
Proof.
  apply run_cells_keeps_graph. unfold after_parse.
  repeat constructor;
    auto using build_query_keeps_graph, execute_keeps_graph, display_keeps_graph.
Qed.


End Cells.

(** The schema formatter reads the ontology through [search_one] alone, so
    two ontologies that answer every search alike give the same cell. *)
Lemma label_of_same_search (o1 o2 : Ontology) (x : binding) :
  same_search o1 o2 -> label_of o1 x = label_of o2 x.
Proof.
  intros [Hiri Hglob]. unfold label_of, search_one. destruct x as [t|]; [|reflexivity].
  destruct (has_star (text t)); [now rewrite Hglob | now rewrite Hiri].
Qed.

Lemma schema_format_row_same_search (b1 b2 : option Ontology) (row : Schema.Row) :
  option_Forall2 same_search b1 b2 ->
  Schema.format_row b1 row = Schema.format_row b2 row.
Proof.
  intros [o1 o2 Hsame|]; [|reflexivity].
  rewrite !format_row_loaded.
  now rewrite !(label_of_same_search o1 o2 _ Hsame).
Qed.

Lemma schema_display_same_search (b1 b2 : option Ontology) (rows : list Schema.Row) :
  option_Forall2 same_search b1 b2 ->
  Schema.display b1 rows = Schema.display b2 rows.
Proof.
  intros Hb. unfold Schema.display. f_equal.
  generalize (@nil string) as out.
  induction rows as [|row rest IH]; intros out; [reflexivity|].
  simpl. rewrite (schema_format_row_same_search b1 b2 row Hb).
  destruct (Schema.format_row b2 row); simpl; [apply IH | reflexivity].
Qed.


(** ** Failures *)


(** The specification's sentence that the output of a display cell depends
    on the rows and the labels alone fails on the electrolyte notebook: on
    the same empty result the cell ends in [NameError] in a kernel where it
    has not run, and prints the label of the earlier result in a kernel
    where it has. *)
Lemma display_deterministic_counterexample :
  Electrolyte.display_from Electrolyte.fresh [] = Raise NameError /\
  Electrolyte.display_from
    (Electrolyte.globals_after Electrolyte.fresh Sample.recorded_solvents) []
  = Ok [ "Electrolyte: 1M LiPF6 in DMC:EC:EMC 1:1:1 (vol.) + 2 wt% VC" ].
Proof. split; reflexivity. Qed.

Section Runs.

Context {Triple : Type} `{Countable Triple} {Document : Type}.


(** C7.  After the parse cell the graph is only read: building the query,
    executing it and displaying the rows each leave [g] with the triples
    it had, in both notebooks, and so does their sequence; at the end of a
    whole run the graph is the one the parse cell left. *)
Theorem graph_read_only
    (get_ontology : result Ontology) (json_load : result Document)
    (jsonld_parse : Document -> gset Triple * option exn)
    (select_schema : gset Triple -> string -> result (list Schema.Row))
    (select_electrolyte : gset Triple -> string -> result (list Electrolyte.Row)) :
  (forall k : @Kernel Triple _ _ Document Schema.Row,
      g (fst (cell_build_query Query.schema k)) = g k /\
      g (fst (cell_execute select_schema k)) = g k /\
      g (fst (cell_display Schema.display k)) = g k /\
      g (fst (run_cells (after_parse select_schema Query.schema Schema.display) k)) = g k)
  /\ (forall k : @Kernel Triple _ _ Document Electrolyte.Row,
        g (fst (cell_build_query Query.electrolyte k)) = g k /\
        g (fst (cell_execute select_electrolyte k)) = g k /\
        g (fst (cell_display Electrolyte.display k)) = g k /\
        g (fst (run_cells
                  (after_parse select_electrolyte Query.electrolyte Electrolyte.display) k))
          = g k)
  /\ g (fst (run_all get_ontology json_load jsonld_parse select_schema
               Query.schema Schema.display))
     = g (fst (run_cells [ cell_load_ontology get_ontology; cell_load_file json_load;
                           cell_parse jsonld_parse ]
                 (fresh_kernel (Row := Schema.Row))))
  /\ g (fst (run_all get_ontology json_load jsonld_parse select_electrolyte
               Query.electrolyte Electrolyte.display))
     = g (fst (run_cells [ cell_load_ontology get_ontology; cell_load_file json_load;
                           cell_parse jsonld_parse ]
                 (fresh_kernel (Row := Electrolyte.Row)))).
Proof.
  repeat split;
    try apply build_query_keeps_graph; try apply execute_keeps_graph;
    try apply display_keeps_graph; try apply after_parse_keeps_graph.
  - unfold run_all, notebook. rewrite run_cells_app.
    destruct (run_cells _ fresh_kernel) as [k' [e|]]; [reflexivity|].
    apply after_parse_keeps_graph.
  - unfold run_all, notebook. rewrite run_cells_app.
    destruct (run_cells _ fresh_kernel) as [k' [e|]]; [reflexivity|].
    apply after_parse_keeps_graph.
Qed.

(** C10, as the code has it.  What the schema cell prints, or the exception
    it ends in, is a function of [results] and of the answers of the ontology
    to a search by IRI: two kernels that agree on these, and differ in the
    graph, the document, the query text, the names of the ontology or the
    text printed before, give the same lines.  The electrolyte cell does not
    read the ontology; on a non-empty result its output is a function of the
    rows alone, whatever an earlier execution left behind, and on any result
    it is a function of the rows and of the binding of [electrolyte_label]
    the cell finds. *)
Theorem display_deterministic :
  (forall k1 k2 : @Kernel Triple _ _ Document Schema.Row,
      results k1 = results k2 ->
      option_Forall2 same_search (battinfo k1) (battinfo k2) ->
      cell_display_out Schema.display k1 = cell_display_out Schema.display k2)
  /\ (forall (st1 st2 : Electrolyte.Locals) (rows : list Electrolyte.Row),
        rows <> [] ->
        Electrolyte.display_from st1 rows = Electrolyte.display_from st2 rows)
  /\ (forall (st1 st2 : Electrolyte.Locals) (rows : list Electrolyte.Row),
        Electrolyte.electrolyte_label st1 = Electrolyte.electrolyte_label st2 ->
        Electrolyte.display_from st1 rows = Electrolyte.display_from st2 rows).
Proof.
  split; [|split].
  - intros k1 k2 Hr Hb. unfold cell_display_out. rewrite Hr.
    destruct (results k2) as [rows|]; simpl; [|reflexivity].
    now apply schema_display_same_search.
  - intros st1 st2 rows Hne. destruct (last rows) as [r|] eqn:Hl.
    + now rewrite !(electrolyte_display_from_nonempty _ rows r Hl).
    + apply last_None in Hl. contradiction.
  - intros st1 st2 rows Hlbl. destruct (last rows) as [r|] eqn:Hl.
    + now rewrite !(electrolyte_display_from_nonempty _ rows r Hl).
    + apply last_None in Hl. subst rows.
      now rewrite !electrolyte_display_from_empty, Hlbl.
Qed.

End Runs.


Lemma display_deterministic_witness :
  cell_display_out Schema.display Sample.kernel_a
    = cell_display_out Schema.display Sample.kernel_b /\
  Electrolyte.display_from Electrolyte.fresh Sample.recorded_solvents
    = Electrolyte.display_from
        (Electrolyte.globals_after Electrolyte.fresh [Sample.unlabelled])
        Sample.recorded_solvents /\
  Electrolyte.display_from Electrolyte.fresh []
    = Electrolyte.display_from
        {| Electrolyte.electrolyte_label := None; Electrolyte.output := ["a line"] |} [].
Proof.
  destruct (display_deterministic (Triple := nat) (Document := bool))
    as (Hschema & Hnonempty & Hlabel).
  split; [|split].
  - apply Hschema; [reflexivity|]. constructor. split; reflexivity.
  - apply Hnonempty. discriminate.
  - apply Hlabel. reflexivity.
Defined.

(** ** The recorded runs *)

(** The schema notebook from a fresh kernel, with an engine that answers the
    three recorded columns: the run ends without exception and standard
    output holds the text saved in the notebook. *)
Example schema_run :
  let '(k, e) :=
    run_all (Triple := nat) (Ok Sample.ontology) (Ok true)
      (fun _ => ({[ 1; 2; 3 ]}, None)) (fun _ _ => Ok Sample.recorded_columns)
      Query.schema Schema.display in
  e = None /\
  stdout k =
    [ "Time-Series Test Data Schema:";
      "Column: test_time_millisecond (Test Time  /  ms), Property Class: TestTime, Unit: MilliSecond, Required: Required";
      "Column: voltage_volt (Voltage  /  V), Property Class: Voltage, Unit: Volt, Required: Required";
      "Column: current_ampere (Current  /  A), Property Class: ElectricCurrent, Unit: Ampere, Required: Required" ].
Proof. vm_compute. split; reflexivity. Qed.

(** The electrolyte notebook stops at its query cell on this ontology, which
    lacks the names the query interpolates. *)
Example electrolyte_run_without_names :
  snd (run_all (Triple := nat) (Ok Sample.ontology) (Ok true)
         (fun _ => ({[ 1; 2; 3 ]}, None)) (fun _ _ => Ok Sample.recorded_solvents)
         Query.electrolyte Electrolyte.display)
  = Some AttributeError.
Proof. vm_compute. reflexivity. Qed.

(** The three ways a schema row can lack a label: an identifier unknown to
    the ontology, an entity without labels, an unbound variable.  An
    identifier with a ["*"] is a pattern and finds the first entity it
    matches. *)
Example pattern_sample :
  label_of Sample.ontology (Some (URIRef "emmo:T*")) = Ok "TestTime" /\
  label_of Sample.ontology (Some (URIRef "emmo:X*")) = Raise AttributeError.
Proof. split; reflexivity. Qed.

Example missing_label_samples :
  map (label_of Sample.bare)
    [ Some (URIRef "emmo:Unknown"); Some (URIRef "emmo:Bare"); None ]
  = [ Raise AttributeError; Raise IndexError; Raise AttributeError ].
Proof. reflexivity. Qed.

(** * Further properties of the cells *)

(** ** The schema loop, row by row *)

Lemma schema_loop_lines (b : option Ontology) (rows : list Schema.Row) :
  forall out ls,
    Schema.loop b rows out = Ok ls <->
    exists lines,
      Forall2 (fun row l => Schema.format_row b row = Ok l) rows lines /\
      ls = out ++ lines.
Proof.
  induction rows as [|row rest IH]; intros out ls; simpl.
  - split.
    + intros [= <-]. exists []. split; [constructor | now rewrite app_nil_r].
    + intros (lines & Hall & ->). inversion Hall. now rewrite app_nil_r.
  - destruct (Schema.format_row b row) as [l|e] eqn:Hrow; simpl.
    + rewrite IH. split.
      * intros (lines & Hall & ->). exists (l :: lines).
        split; [now constructor | now rewrite <- app_assoc].
      * intros (lines & Hall & ->). inversion Hall as [|? l' ? lines' Hl Hrest]; subst.
        assert (l' = l) as -> by congruence.
        exists lines'. split; [exact Hrest | now rewrite <- app_assoc].
    + split; [discriminate|]. intros (lines & Hall & _).
      inversion Hall; subst. congruence.
Qed.

(** X1.  The schema cell ends normally exactly when every row formats, and
    then it prints the heading followed by one line per row, in the order of
    the rows, each line being the one its row formats to on its own. *)
Theorem schema_display_lines (b : option Ontology) (rows : list Schema.Row)
    (ls : list string) :
  Schema.display b rows = Ok ls <->
  exists lines,
    Forall2 (fun row l => Schema.format_row b row = Ok l) rows lines /\
    ls = "Time-Series Test Data Schema:" :: lines.
Proof.
  unfold Schema.display. split.
  - destruct (Schema.loop b rows []) as [out|e] eqn:Hloop; simpl; [|discriminate].
    intros [= <-]. apply schema_loop_lines in Hloop as (lines & Hall & ->).
    now exists lines.
  - intros (lines & Hall & ->).
    assert (Hloop : Schema.loop b rows [] = Ok lines).
    { apply schema_loop_lines. now exists lines. }
    now rewrite Hloop.
Qed.

Lemma schema_loop_first_failure (b : option Ontology) (pre : list Schema.Row) :
  forall (lines : list string) (row : Schema.Row) (post : list Schema.Row)
         (e : exn) (out : list string),
    Forall2 (fun r l => Schema.format_row b r = Ok l) pre lines ->
    Schema.format_row b row = Raise e ->
    Schema.loop b (pre ++ row :: post) out = Raise e.
Proof.
  induction pre as [|r pre IH]; intros lines row post e out Hall Hrow.
  - simpl. now rewrite Hrow.
  - inversion Hall as [|? l ? lines' Hl Hrest]; subst. simpl. rewrite Hl. simpl.
    now apply (IH lines').
Qed.

(** X2.  The schema cell ends in the exception of the first row that fails:
    the rows before it are formatted and thrown away, the rows after it are
    never looked at, and nothing is printed. *)
Theorem schema_display_first_failure (b : option Ontology)
    (pre post : list Schema.Row) (row : Schema.Row) (lines : list string) (e : exn) :
  Forall2 (fun r l => Schema.format_row b r = Ok l) pre lines ->
  Schema.format_row b row = Raise e ->
  Schema.display b (pre ++ row :: post) = Raise e.
Proof.
  intros Hall Hrow. unfold Schema.display.
  now rewrite (schema_loop_first_failure b pre lines row post e [] Hall Hrow).
Qed.

Lemma schema_display_first_failure_witness :
  Schema.display (Some Sample.ontology)
    ([ Sample.column "voltage_volt" "Voltage  /  V" "emmo:Voltage" "emmo:Volt" ]
       ++ Sample.unknown_unit :: [ Sample.row_with_required None ])
  = Raise AttributeError.
Proof.
  apply (schema_display_first_failure (Some Sample.ontology)
           [ Sample.column "voltage_volt" "Voltage  /  V" "emmo:Voltage" "emmo:Volt" ]
           [ Sample.row_with_required None ] Sample.unknown_unit
           [ "Column: voltage_volt (Voltage  /  V), Property Class: Voltage, Unit: Volt, Required: Required" ]
           AttributeError).
  - repeat constructor.
  - reflexivity.
Defined.

(** ** The query cells *)

Lemma iri_of_ok (o : Ontology) (n : string) :
  (exists i, iri_of o n = Ok i) <-> is_Some (by_label o !! n).
Proof.
  unfold iri_of. destruct (by_label o !! n) as [i|]; split.
  - intros _. now exists i.
  - intros _. now exists i.
  - intros [i Hi]. discriminate.
  - intros [i Hi]. discriminate.
Qed.

Lemma iri_of_raises (o : Ontology) (n : string) (e : exn) :
  iri_of o n = Raise e -> e = AttributeError.
Proof. unfold iri_of. destruct (by_label o !! n); [discriminate | now intros [= <-]]. Qed.

(** X3.  The query cell succeeds exactly when the ontology knows every name
    the f-string interpolates: [hasMeasurementUnit] for the schema query, six
    names for the electrolyte query.  When a name is missing the cell ends in
    [AttributeError], whichever name it is. *)
Theorem query_needs_names (o : Ontology) :
  ((exists q, Query.schema o = Ok q) <-> is_Some (by_label o !! "hasMeasurementUnit"))
  /\ ((exists q, Query.electrolyte o = Ok q) <->
        Forall (fun n => is_Some (by_label o !! n))
          [ "Electrolyte"; "hasSolvent"; "hasConstituent"; "hasProperty";
            "hasNumericalPart"; "hasNumberValue" ])
  /\ (forall e, Query.schema o = Raise e \/ Query.electrolyte o = Raise e ->
                e = AttributeError).
Proof.
  split; [|split].
  - rewrite <- iri_of_ok. unfold Query.schema.
    destruct (iri_of o "hasMeasurementUnit") as [i|e]; simpl; split.
    + intros _. now exists i.
    + intros _. eexists. reflexivity.
    + intros [q Hq]. discriminate.
    + intros [i Hi]. discriminate.
  - rewrite !Forall_cons, Forall_nil, <- !iri_of_ok. unfold Query.electrolyte.
    destruct (iri_of o "Electrolyte") as [i1|]; simpl;
      [|split; [intros [? ?]; discriminate | intros [[? ?] _]; discriminate]].
    destruct (iri_of o "hasSolvent") as [i2|]; simpl;
      [|split; [intros [? ?]; discriminate | intros (_ & [? ?] & _); discriminate]].
    destruct (iri_of o "hasConstituent") as [i3|]; simpl;
      [|split; [intros [? ?]; discriminate | intros (_ & _ & [? ?] & _); discriminate]].
    destruct (iri_of o "hasProperty") as [i4|]; simpl;
      [|split; [intros [? ?]; discriminate | intros (_ & _ & _ & [? ?] & _); discriminate]].
    destruct (iri_of o "hasNumericalPart") as [i5|]; simpl;
      [|split; [intros [? ?]; discriminate
               | intros (_ & _ & _ & _ & [? ?] & _); discriminate]].
    destruct (iri_of o "hasNumberValue") as [i6|]; simpl;
      [|split; [intros [? ?]; discriminate
               | intros (_ & _ & _ & _ & _ & [? ?] & _); discriminate]].
    split; [intros _ | intros _; eexists; reflexivity].
    repeat split; eexists; reflexivity.
  - intros e [He | He].
    + unfold Query.schema in He.
      destruct (iri_of o "hasMeasurementUnit") as [i|e'] eqn:Hi; simpl in He;
        [discriminate|]. injection He as <-. now apply iri_of_raises in Hi.
    + unfold Query.electrolyte in He.
      repeat match type of He with
             | context [iri_of o ?n] =>
                 let Hi := fresh "Hi" in
                 destruct (iri_of o n) eqn:Hi; simpl in He;
                 [| injection He as <-; now apply iri_of_raises in Hi]
             end.
      discriminate.
Qed.

Lemma query_needs_names_witness :
  (exists q, Query.schema Sample.ontology = Ok q) /\
  Query.electrolyte Sample.ontology = Raise AttributeError.
Proof.
  destruct (query_needs_names Sample.ontology) as (Hschema & _ & Hraise). split.
  - apply Hschema. now exists "emmo:hasMeasurementUnit".
  - destruct (Query.electrolyte Sample.ontology) as [q|e] eqn:Hq; [discriminate|].
    now rewrite (Hraise e (or_intror eq_refl)).
Defined.

(** ** Whole runs *)

Section Pipeline.

Context {Triple : Type} `{Countable Triple} {Document Row : Type}.
Variable get_ontology : result Ontology.
Variable json_load : result Document.
Variable jsonld_parse : Document -> gset Triple * option exn.
Variable sparql_select : gset Triple -> string -> result (list Row).
Variable build_query : Ontology -> result string.
Variable display : option Ontology -> list Row -> result (list string).

(** X4.  A run of all cells from a fresh kernel ends without exception
    exactly when every step succeeds on the result of the steps before it:
    the query is built from the ontology that was loaded, it is executed on
    the triples parsed from the document that was loaded, and the display
    cell is given the rows of that execution.  The kernel then holds exactly
    these values and standard output holds exactly the lines of the display
    cell. *)
Theorem run_all_success (k : @Kernel Triple _ _ Document Row) :
  run_all get_ontology json_load jsonld_parse sparql_select build_query display
    = (k, None)
  <->
  exists o doc triples q rows ls,
    get_ontology = Ok o /\
    json_load = Ok doc /\
    jsonld_parse doc = (triples, None) /\
    build_query o = Ok q /\
    sparql_select (∅ ∪ triples) q = Ok rows /\
    display (Some o) rows = Ok ls /\
    k = {| battinfo := Some o; jsonld_data := Some doc; g := Some (∅ ∪ triples);
           query := Some q; results := Some rows; stdout := ls |}.
Proof.
  unfold run_all, notebook, after_parse. simpl.
  unfold cell_load_ontology, cell_load_file, cell_parse, cell_build_query,
    cell_execute, cell_display, cell_display_out, assign.
  split.
  - destruct get_ontology as [o|]; simpl; [|discriminate].
    destruct json_load as [doc|]; simpl; [|discriminate].
    destruct (jsonld_parse doc) as [triples [e|]] eqn:Hparse; simpl; [discriminate|].
    destruct (build_query o) as [q|] eqn:Hq; simpl; [|discriminate].
    destruct (sparql_select (∅ ∪ triples) q) as [rows|] eqn:Hrows; simpl; [|discriminate].
    destruct (display (Some o) rows) as [ls|] eqn:Hls; simpl; [|discriminate].
    intros [= <-]. now exists o, doc, triples, q, rows, ls.
  - intros (o & doc & triples & q & rows & ls & -> & -> & Hparse & Hq & Hrows & Hls & ->).
    simpl. rewrite Hparse. simpl. rewrite Hq. simpl. rewrite Hrows. simpl.
    rewrite Hls. reflexivity.
Qed.

End Pipeline.
